(** * The connected-client registry of the message WebSocket service

    A shallow embedding of [MessageWsService]
    (src/core/message-ws/message-ws.service.ts) and the properties of its
    single-session-per-user protocol.

    The service keeps one JavaScript object, [connectedClients], used as a
    map from socket ids to [{ socket, user }] records.  The object is modelled
    by its own properties in creation order; the order in which
    [Object.keys] enumerates them is computed from that, since
    [checkUserConnection] stops at the first match.  Calls of
    [socket.disconnect()] are an effect on the transport and are recorded in a
    log; exceptions are explicit completions. *)

From Stdlib Require Import String Ascii List Bool NArith Lia.
Import ListNotations.

Local Open Scope string_scope.
Local Open Scope list_scope.

(** ** Collaborators *)

(** Modelled from the spec: the [User] entity
    (src/core/auth/entities/user.entity) is imported but is not part of the
    sources at hand.  The service reads [id], [isActive] and [fullName]; the
    spec lists the same three fields (identifier, active flag, display name). *)
Module User.
Record t : Type := mk { id : string; fullName : string; isActive : bool }.
End User.

(** Modelled from the spec: a socket.io [Socket], the connection handle.  The
    service reads [id] and calls [disconnect()].  [handle] stands for the
    identity of the JavaScript object, so that two connection objects
    carrying the same session identifier remain distinguishable.  The [id] is
    the session identifier the transport assigns (a random token); it is
    taken not to be the reserved name [__proto__], the one key an assignment
    would not store as an own property. *)
Module Socket.
Record t : Type := mk { id : string; handle : nat }.
End Socket.

(** What a JavaScript [throw] carries here: [new Error(message)], or the
    [TypeError] raised when a property of [undefined] is read. *)
Inductive Exn : Type :=
| Error (message : string)
| TypeError.

(** How an evaluation ends: with a value, or by throwing. *)
Inductive Completion (A : Type) : Type :=
| Normal (a : A)
| Throw (e : Exn).
Arguments Normal {A} a.
Arguments Throw {A} e.

(** [Repository<User>]: [findOneBy({ id })] resolves to a user or to [null]
    ([None]), or rejects; [await] turns a rejection into a throw. *)
Definition UserRepository : Type := string -> Completion (option User.t).

(** ** The object used as a map *)

(** One value of [ConnectedClients]: [{ socket: Socket; user: User }]. *)
Record Client : Type := mkClient { socket : Socket.t; user : User.t }.

(** [interface ConnectedClients { [id: string]: { socket; user } }]: the own
    properties of the object, oldest first. *)
Definition ConnectedClients : Type := list (string * Client).

Module Obj.

(** [o[k]]; [None] is [undefined]. *)
Fixpoint get (o : ConnectedClients) (k : string) : option Client :=
  match o with
  | [] => None
  | (k', v) :: rest => if String.eqb k' k then Some v else get rest k
  end.

(** [o[k] = v]: an existing property keeps its place, a new one is created
    last. *)
Fixpoint set (o : ConnectedClients) (k : string) (v : Client) : ConnectedClients :=
  match o with
  | [] => [(k, v)]
  | (k', v') :: rest =>
      if String.eqb k' k then (k', v) :: rest else (k', v') :: set rest k v
  end.

(** [delete o[k]]. *)
Fixpoint delete (o : ConnectedClients) (k : string) : ConnectedClients :=
  match o with
  | [] => []
  | (k', v') :: rest =>
      if String.eqb k' k then delete rest k else (k', v') :: delete rest k
  end.

(** The value of a decimal digit. *)
Definition digit (c : ascii) : option N :=
  let n := N_of_ascii c in
  if (48 <=? n)%N && (n <=? 57)%N then Some (n - 48)%N else None.

Fixpoint digits (acc : N) (s : string) : option N :=
  match s with
  | EmptyString => Some acc
  | String c rest =>
      match digit c with
      | Some d => digits (acc * 10 + d)%N rest
      | None => None
      end
  end.

(** A property name is an array index when it is the canonical decimal
    form of an integer below 2^32 - 1. *)
Definition array_index (k : string) : option N :=
  match k with
  | EmptyString => None
  | String "0"%char EmptyString => Some 0%N
  | String "0"%char _ => None
  | _ =>
      match digits 0 k with
      | Some n => if (n <=? 4294967294)%N then Some n else None
      | None => None
      end
  end.

Definition is_index (k : string) : bool :=
  match array_index k with Some _ => true | None => false end.

Definition index_leb (k1 k2 : string) : bool :=
  match array_index k1, array_index k2 with
  | Some n1, Some n2 => (n1 <=? n2)%N
  | _, _ => true
  end.

Fixpoint insert_index (k : string) (ks : list string) : list string :=
  match ks with
  | [] => [k]
  | k' :: rest => if index_leb k k' then k :: ks else k' :: insert_index k rest
  end.

Fixpoint sort_index (ks : list string) : list string :=
  match ks with
  | [] => []
  | k :: rest => insert_index k (sort_index rest)
  end.

(** [Object.keys(o)]: array indices in ascending numeric order, then the
    other names in creation order. *)
Definition keys (o : ConnectedClients) : list string :=
  let names := map fst o in
  sort_index (filter is_index names)
    ++ filter (fun k => negb (is_index k)) names.

End Obj.

(** ** Effects *)

(** The result of running a method: its completion, the [connectedClients]
    object afterwards, and the sockets on which [disconnect()] was called, in
    call order. *)
Record Outcome (A : Type) : Type := mkOutcome {
  completion : Completion A;
  clients : ConnectedClients;
  disconnected : list Socket.t
}.
Arguments mkOutcome {A} _ _ _.
Arguments completion {A} _.
Arguments clients {A} _.
Arguments disconnected {A} _.

Definition M (A : Type) : Type := ConnectedClients -> Outcome A.

Definition ret {A : Type} (a : A) : M A :=
  fun o => mkOutcome (Normal a) o [].

Definition throw {A : Type} (e : Exn) : M A :=
  fun o => mkOutcome (Throw e) o [].

Definition bind {A B : Type} (m : M A) (f : A -> M B) : M B :=
  fun o =>
    let r := m o in
    match completion r with
    | Normal a =>
        let r' := f a (clients r) in
        mkOutcome (completion r') (clients r') (disconnected r ++ disconnected r')
    | Throw e => mkOutcome (Throw e) (clients r) (disconnected r)
    end.

Declare Scope js_scope.
Delimit Scope js_scope with js.
Notation "x <- m ;; k" := (bind m (fun x => k))
  (at level 61, m at next level, right associativity) : js_scope.
Notation "m ;; k" := (bind m (fun _ => k))
  (at level 61, right associativity) : js_scope.
Local Open Scope js_scope.

(** Reading [this.connectedClients]. *)
Definition this_connectedClients : M ConnectedClients :=
  fun o => mkOutcome (Normal o) o [].

(** Replacing the contents of [this.connectedClients]. *)
Definition update (f : ConnectedClients -> ConnectedClients) : M unit :=
  fun o => mkOutcome (Normal tt) (f o) [].

(** [socket.disconnect()]. *)
Definition disconnect (s : Socket.t) : M unit :=
  fun o => mkOutcome (Normal tt) o [s].

(** [await p]. *)
Definition await {A : Type} (p : Completion A) : M A :=
  match p with
  | Normal a => ret a
  | Throw e => throw e
  end.

(** Reading a property of a value that may be [undefined]. *)
Definition member {A B : Type} (x : option A) (f : A -> B) : M B :=
  match x with
  | Some a => ret (f a)
  | None => throw TypeError
  end.

(** ** The service *)

Module MessageWsService.

(** [private connectedClients: ConnectedClients = {}]. *)
Definition init : ConnectedClients := [].

(** The body of the [for ... of Object.keys(...)] loop of
    [checkUserConnection], over the keys still to visit. *)
Fixpoint checkUserConnection_loop (ks : list string) (u : User.t) : M unit :=
  match ks with
  | [] => ret tt
  | clientId :: rest =>
      o <- this_connectedClients ;;
      let connectedClients := Obj.get o clientId in
      u' <- member connectedClients user ;;
      if String.eqb (User.id u') (User.id u) then
        s <- member connectedClients socket ;;
        disconnect s
      else checkUserConnection_loop rest u
  end.

Definition checkUserConnection (u : User.t) : M unit :=
  o <- this_connectedClients ;;
  checkUserConnection_loop (Obj.keys o) u.

(** The method is [async] and suspends once, at the [await]; the object it
    then works on is the one it finds when it resumes. *)
Definition registerClient (userRepository : UserRepository)
    (client : Socket.t) (userId : string) : M unit :=
  found <- await (userRepository userId) ;;
  match found with
  | None => throw (Error "User not found")
  | Some u =>
      if negb (User.isActive u) then throw (Error "User is not active")
      else
        checkUserConnection u ;;
        update (fun o => Obj.set o (Socket.id client) (mkClient client u))
  end.

Definition removeClient (clientId : string) : M unit :=
  update (fun o => Obj.delete o clientId).

Definition getConnectedClients : M (list string) :=
  o <- this_connectedClients ;;
  ret (Obj.keys o).

Definition getUserFullName (clientId : string) : M string :=
  o <- this_connectedClients ;;
  u <- member (Obj.get o clientId) user ;;
  ret (User.fullName u).

End MessageWsService.

(** ** Vocabulary of the specification *)

(** The specification's error kinds, as the code raises them. *)
Definition UserNotFound : Exn := Error "User not found".
Definition UserInactive : Exn := Error "User is not active".

(** [getUserFullName] has no guard of its own: a missing record surfaces as
    the [TypeError] of reading [.user] of [undefined]. *)
Definition SessionNotFound : Exn := TypeError.

(** A session has a record when its identifier is an own property. *)
Definition has_record (o : ConnectedClients) (sessionId : string) : Prop :=
  Obj.get o sessionId <> None.

(** At most one session per user identity: two records under different
    session identifiers never carry the same [user.id]. *)
Definition single_session_per_user (o : ConnectedClients) : Prop :=
  forall k1 k2 c1 c2,
    k1 <> k2 ->
    Obj.get o k1 = Some c1 ->
    Obj.get o k2 = Some c2 ->
    User.id (user c1) <> User.id (user c2).

(** Every record is filed under the identifier of its own socket. *)
Definition keyed_by_socket_id (o : ConnectedClients) : Prop :=
  forall k c, Obj.get o k = Some c -> Socket.id (socket c) = k.

(** What the registry maintains between deliveries of events. *)
Definition well_kept (o : ConnectedClients) : Prop :=
  single_session_per_user o /\ keyed_by_socket_id o.

(** The first record, in the order of the keys [ks], whose [user.id] is
    [uid]: the one [checkUserConnection] stops at. *)
Fixpoint first_session_of (o : ConnectedClients) (ks : list string)
    (uid : string) : option (string * Client) :=
  match ks with
  | [] => None
  | k :: rest =>
      match Obj.get o k with
      | Some c =>
          if String.eqb (User.id (user c)) uid then Some (k, c)
          else first_session_of o rest uid
      | None => None
      end
  end.

(** The sockets an eviction scan for [uid] disconnects. *)
Definition evicted (o : ConnectedClients) (uid : string) : list Socket.t :=
  match first_session_of o (Obj.keys o) uid with
  | Some (_, c) => [socket c]
  | None => []
  end.

(** ** Sequences of calls *)

(** One call on the registry's mutation surface.  A [Register] carries the
    directory as it stands when the call is made. *)
Inductive Call : Type :=
| Register (userRepository : UserRepository) (client : Socket.t) (userId : string)
| Unregister (clientId : string).

Definition call (c : Call) : M unit :=
  match c with
  | Register userRepository client userId =>
      MessageWsService.registerClient userRepository client userId
  | Unregister clientId => MessageWsService.removeClient clientId
  end.

(** The session identifier a call is about. *)
Definition session_of (c : Call) : string :=
  match c with
  | Register _ client _ => Socket.id client
  | Unregister clientId => clientId
  end.

(** The object after a sequence of calls; a call that throws does not stop
    the ones after it, each being an event of its own. *)
Fixpoint after_calls (cs : list Call) (o : ConnectedClients) : ConnectedClients :=
  match cs with
  | [] => o
  | c :: rest => after_calls rest (clients (call c o))
  end.

(** Modelled from the spec: the gateway that owns the sockets is not part of
    the sources at hand.  Per the spec the transport answers the close of a
    connection with a disconnect notification, [onDisconnect(sessionId)],
    which triggers [unregister].  [disconnect_flow c o] is the list of those
    notifications for the sockets that call [c] disconnects in [o]. *)
Definition disconnect_flow (c : Call) (o : ConnectedClients) : list Call :=
  map (fun s => Unregister (Socket.id s)) (disconnected (call c o)).

(** A sequence of calls in which every call is followed at once by the
    disconnect notifications it causes. *)
Fixpoint with_disconnect_flow (cs : list Call) (o : ConnectedClients) : list Call :=
  match cs with
  | [] => []
  | c :: rest =>
      let step := c :: disconnect_flow c o in
      step ++ with_disconnect_flow rest (after_calls step o)
  end.

(** ** The scenario of the specification *)

Module Scenario.

Definition ada : User.t := User.mk "u1" "Ada Lovelace" true.

Definition directory : UserRepository :=
  fun userId => Normal (if String.eqb userId "u1" then Some ada else None).

Definition connA : Socket.t := Socket.mk "connA" 1.
Definition connB : Socket.t := Socket.mk "connB" 2.

End Scenario.

(** * Properties *)

(** ** The object as a map *)

Section ObjFacts.

Variable o : ConnectedClients.

Lemma get_set (k k' : string) (v : Client) :
  Obj.get (Obj.set o k v) k' = if String.eqb k k' then Some v else Obj.get o k'.
Proof.
  induction o as [|[k0 v0] rest IH]; simpl.
  - rewrite String.eqb_sym. reflexivity.
  - destruct (String.eqb k0 k) eqn:E0; simpl.
    + apply String.eqb_eq in E0; subst k0.
      destruct (String.eqb k k'); reflexivity.
    + destruct (String.eqb k0 k') eqn:E1.
      * apply String.eqb_eq in E1; subst k0.
        rewrite String.eqb_sym, E0. reflexivity.
      * exact IH.
Qed.

Lemma get_delete (k k' : string) :
  Obj.get (Obj.delete o k) k' = if String.eqb k k' then None else Obj.get o k'.
Proof.
  induction o as [|[k0 v0] rest IH]; simpl.
  - destruct (String.eqb k k'); reflexivity.
  - destruct (String.eqb k0 k) eqn:E0.
    + apply String.eqb_eq in E0; subst k0.
      rewrite IH. destruct (String.eqb k k'); reflexivity.
    + simpl. destruct (String.eqb k0 k') eqn:E1.
      * apply String.eqb_eq in E1; subst k0.
        rewrite String.eqb_sym, E0. reflexivity.
      * exact IH.
Qed.

Lemma delete_absent (k : string) :
  Obj.get o k = None -> Obj.delete o k = o.
Proof.
  induction o as [|[k0 v0] rest IH]; simpl; [reflexivity|].
  destruct (String.eqb k0 k); [discriminate|].
  intros H. rewrite (IH H). reflexivity.
Qed.

Lemma names_set_present (k : string) (v : Client) :
  Obj.get o k <> None -> map fst (Obj.set o k v) = map fst o.
Proof.
  induction o as [|[k0 v0] rest IH]; simpl; [congruence|].
  destruct (String.eqb k0 k); simpl; [reflexivity|].
  intros H. rewrite (IH H). reflexivity.
Qed.

Lemma In_names (k : string) : In k (map fst o) <-> Obj.get o k <> None.
Proof.
  induction o as [|[k0 v0] rest IH]; simpl.
  - split; [tauto | congruence].
  - destruct (String.eqb k0 k) eqn:E0.
    + apply String.eqb_eq in E0. split; [discriminate | auto].
    + apply String.eqb_neq in E0. rewrite <- IH. tauto.
Qed.

End ObjFacts.

Lemma In_insert_index (k x : string) (ks : list string) :
  In x (Obj.insert_index k ks) <-> x = k \/ In x ks.
Proof.
  induction ks as [|k' rest IH]; simpl.
  - intuition.
  - destruct (Obj.index_leb k k'); simpl; [intuition|].
    rewrite IH. intuition.
Qed.

Lemma In_sort_index (x : string) (ks : list string) :
  In x (Obj.sort_index ks) <-> In x ks.
Proof.
  induction ks as [|k rest IH]; simpl; [tauto|].
  rewrite In_insert_index, IH. intuition.
Qed.

Lemma In_keys (o : ConnectedClients) (k : string) :
  In k (Obj.keys o) <-> has_record o k.
Proof.
  unfold Obj.keys, has_record. rewrite <- In_names.
  rewrite in_app_iff, In_sort_index, !filter_In.
  destruct (Obj.is_index k); simpl; intuition congruence.
Qed.

Lemma keys_set_present (o : ConnectedClients) (k : string) (v : Client) :
  has_record o k -> Obj.keys (Obj.set o k v) = Obj.keys o.
Proof.
  intros H. unfold Obj.keys. rewrite names_set_present by exact H. reflexivity.
Qed.

(** ** The eviction scan *)

(** Unfolds the plumbing of [M] in the goal. *)
Ltac run :=
  unfold MessageWsService.registerClient, MessageWsService.removeClient,
    MessageWsService.getConnectedClients, MessageWsService.getUserFullName,
    MessageWsService.checkUserConnection,
    bind, ret, throw, await, member, update, disconnect, this_connectedClients;
  simpl.

Section Scan.

Variable o : ConnectedClients.
Variable uid : string.

Lemma first_session_some (ks : list string) (k : string) (c : Client) :
  first_session_of o ks uid = Some (k, c) ->
  exists pre post,
    ks = pre ++ k :: post /\
    Obj.get o k = Some c /\
    User.id (user c) = uid /\
    forall k' c', In k' pre -> Obj.get o k' = Some c' -> User.id (user c') <> uid.
Proof.
  induction ks as [|k0 rest IH]; simpl; [discriminate|].
  destruct (Obj.get o k0) as [c0|] eqn:G; [|discriminate].
  destruct (String.eqb (User.id (user c0)) uid) eqn:E.
  - intros [= <- <-]. exists [], rest.
    apply String.eqb_eq in E. simpl. intuition.
  - intros H. destruct (IH H) as (pre & post & -> & Gk & Ek & Hpre).
    exists (k0 :: pre), post. repeat split; auto.
    intros k' c' [<- | Hin] G'.
    + rewrite G in G'. injection G' as <-. apply String.eqb_neq. exact E.
    + eauto.
Qed.

Lemma first_session_none (ks : list string) :
  (forall k, In k ks -> has_record o k) ->
  first_session_of o ks uid = None ->
  forall k c, In k ks -> Obj.get o k = Some c -> User.id (user c) <> uid.
Proof.
  induction ks as [|k0 rest IH]; simpl; [tauto|].
  intros Hrec Hnone k c Hin G.
  destruct (Obj.get o k0) as [c0|] eqn:G0.
  - destruct (String.eqb (User.id (user c0)) uid) eqn:E; [discriminate|].
    destruct Hin as [<- | Hin].
    + rewrite G0 in G. injection G as <-. apply String.eqb_neq. exact E.
    + apply (IH (fun k' H' => Hrec k' (or_intror H')) Hnone k c Hin G).
  - exfalso. apply (Hrec k0 (or_introl eq_refl)). exact G0.
Qed.

(** The loop of [checkUserConnection] never throws on keys that have a
    record, leaves the object alone, and disconnects the socket of the
    first match only. *)
Lemma checkUserConnection_loop_spec (u : User.t) (ks : list string) :
  User.id u = uid ->
  (forall k, In k ks -> has_record o k) ->
  MessageWsService.checkUserConnection_loop ks u o
  = mkOutcome (Normal tt) o
      (match first_session_of o ks uid with
       | Some (_, c) => [socket c]
       | None => []
       end).
Proof.
  intros <-. induction ks as [|k0 rest IH]; intros Hrec; [reflexivity|].
  simpl. run.
  destruct (Obj.get o k0) as [c0|] eqn:G; simpl.
  - destruct (String.eqb (User.id (user c0)) (User.id u)); simpl.
    + reflexivity.
    + rewrite IH by (intros k Hk; apply Hrec; right; exact Hk).
      reflexivity.
  - exfalso. apply (Hrec k0 (or_introl eq_refl)). exact G.
Qed.

End Scan.

Lemma checkUserConnection_spec (o : ConnectedClients) (u : User.t) :
  MessageWsService.checkUserConnection u o
  = mkOutcome (Normal tt) o (evicted o (User.id u)).
Proof.
  unfold MessageWsService.checkUserConnection, bind, this_connectedClients; simpl.
  rewrite (checkUserConnection_loop_spec o (User.id u) u (Obj.keys o) eq_refl)
    by (intros k Hk; apply In_keys; exact Hk).
  reflexivity.
Qed.

(** What [registerClient] does once the directory has answered with an
    active user. *)
Lemma registerClient_active (o : ConnectedClients) (userRepository : UserRepository)
    (client : Socket.t) (userId : string) (u : User.t) :
  userRepository userId = Normal (Some u) ->
  User.isActive u = true ->
  MessageWsService.registerClient userRepository client userId o
  = mkOutcome (Normal tt)
      (Obj.set o (Socket.id client) (mkClient client u))
      (evicted o (User.id u)).
Proof.
  intros Hfind Hactive.
  unfold MessageWsService.registerClient, bind at 1.
  rewrite Hfind; simpl. rewrite Hactive; simpl.
  unfold bind. rewrite checkUserConnection_spec; simpl.
  rewrite app_nil_r. reflexivity.
Qed.

(** In every other case [registerClient] throws and touches nothing. *)
Lemma registerClient_rejected (o : ConnectedClients) (userRepository : UserRepository)
    (client : Socket.t) (userId : string) :
  (forall u, userRepository userId = Normal (Some u) -> User.isActive u = false) ->
  exists e,
    MessageWsService.registerClient userRepository client userId o
    = mkOutcome (Throw e) o [].
Proof.
  intros Hno. unfold MessageWsService.registerClient, bind at 1.
  destruct (userRepository userId) as [[u|]|e] eqn:Hfind; simpl.
  - rewrite (Hno u eq_refl); simpl. eexists; reflexivity.
  - eexists; reflexivity.
  - eexists; reflexivity.
Qed.

(** [registerClient] either leaves the object as it was or writes the one
    property named by the socket's id. *)
Lemma registerClient_frame (o : ConnectedClients) (userRepository : UserRepository)
    (client : Socket.t) (userId : string) (k : string) :
  k <> Socket.id client ->
  Obj.get (clients (MessageWsService.registerClient userRepository client userId o)) k
  = Obj.get o k.
Proof.
  intros Hk.
  destruct (userRepository userId) as [[u|]|e] eqn:Hfind;
    [destruct (User.isActive u) eqn:Hactive|..].
  - rewrite (registerClient_active o _ client userId u Hfind Hactive); simpl.
    rewrite get_set.
    destruct (String.eqb (Socket.id client) k) eqn:E; [|reflexivity].
    apply String.eqb_eq in E. congruence.
  - destruct (registerClient_rejected o userRepository client userId) as [e ->];
      [|reflexivity].
    intros u' Hu'. congruence.
  - destruct (registerClient_rejected o userRepository client userId) as [e ->];
      [|reflexivity].
    intros u' Hu'. congruence.
  - destruct (registerClient_rejected o userRepository client userId) as [e' ->];
      [|reflexivity].
    intros u' Hu'. congruence.
Qed.

(** ** Failures that leave the registry alone *)

(** Neither a fresh registry nor one from which [sessionId] was just removed
    has a record for it. *)
Lemma removeClient_forgets (o : ConnectedClients) (sessionId : string) :
  Obj.get (clients (MessageWsService.removeClient sessionId o)) sessionId = None.
Proof.
  run. rewrite get_delete, String.eqb_refl. reflexivity.
Qed.

Lemma init_has_no_record (sessionId : string) :
  Obj.get MessageWsService.init sessionId = None.
Proof. reflexivity. Qed.

(** C2: for a session identifier under which the registry holds no record,
    [getUserFullName] fails with [SessionNotFound]; the registry is not
    changed and no socket is disconnected. *)
Theorem getUserFullName_without_record (o : ConnectedClients) (sessionId : string) :
  Obj.get o sessionId = None ->
  MessageWsService.getUserFullName sessionId o
  = mkOutcome (Throw SessionNotFound) o [].
Proof.
  intros Hnone. run. rewrite Hnone. reflexivity.
Qed.

(** A session registered and then removed again: its name can no longer be
    asked for. *)
Lemma getUserFullName_without_record_witness :
  let o :=
    after_calls
      [Register Scenario.directory Scenario.connA "u1"; Unregister "connA"]
      MessageWsService.init in
  Obj.get o "connA" = None /\
  MessageWsService.getUserFullName "connA" o
  = mkOutcome (Throw SessionNotFound) o [].
Proof.
  split; [reflexivity|].
  apply getUserFullName_without_record. reflexivity.
Defined.

(** C4: when the directory reports the user as absent, [registerClient]
    fails with [UserNotFound] and the registry is exactly as before. *)
Theorem registerClient_unknown_user (o : ConnectedClients)
    (userRepository : UserRepository) (client : Socket.t) (userId : string) :
  userRepository userId = Normal None ->
  MessageWsService.registerClient userRepository client userId o
  = mkOutcome (Throw UserNotFound) o [].
Proof.
  intros Hfind. unfold MessageWsService.registerClient, bind.
  rewrite Hfind. reflexivity.
Qed.

Lemma registerClient_unknown_user_witness :
  let o := clients (call (Register Scenario.directory Scenario.connA "u1")
                      MessageWsService.init) in
  Scenario.directory "u2" = Normal None /\
  MessageWsService.registerClient Scenario.directory Scenario.connB "u2" o
  = mkOutcome (Throw UserNotFound) o [].
Proof.
  split; [reflexivity|].
  apply registerClient_unknown_user. reflexivity.
Defined.

(** C5: when the directory knows the user but marks it inactive,
    [registerClient] fails with [UserInactive] and the registry is exactly
    as before. *)
Theorem registerClient_inactive_user (o : ConnectedClients)
    (userRepository : UserRepository) (client : Socket.t) (userId : string)
    (u : User.t) :
  userRepository userId = Normal (Some u) ->
  User.isActive u = false ->
  MessageWsService.registerClient userRepository client userId o
  = mkOutcome (Throw UserInactive) o [].
Proof.
  intros Hfind Hinactive. unfold MessageWsService.registerClient, bind.
  rewrite Hfind; simpl. rewrite Hinactive. reflexivity.
Qed.

Lemma registerClient_inactive_user_witness :
  let o := clients (call (Register Scenario.directory Scenario.connA "u1")
                      MessageWsService.init) in
  let grace := User.mk "u1" "Grace Hopper" false in
  let userRepository : UserRepository := fun _ => Normal (Some grace) in
  userRepository "u1" = Normal (Some grace) /\
  User.isActive grace = false /\
  MessageWsService.registerClient userRepository Scenario.connB "u1" o
  = mkOutcome (Throw UserInactive) o [].
Proof.
  split; [reflexivity|]. split; [reflexivity|].
  apply (registerClient_inactive_user _ _ _ _ (User.mk "u1" "Grace Hopper" false));
    reflexivity.
Defined.

(** C6: [removeClient] of a session identifier that has no record completes
    normally and leaves the registry exactly as it was. *)
Theorem removeClient_without_record (o : ConnectedClients) (sessionId : string) :
  Obj.get o sessionId = None ->
  MessageWsService.removeClient sessionId o = mkOutcome (Normal tt) o [].
Proof.
  intros Hnone. run. rewrite delete_absent by exact Hnone. reflexivity.
Qed.

Lemma removeClient_without_record_witness :
  let o := clients (call (Register Scenario.directory Scenario.connA "u1")
                      MessageWsService.init) in
  Obj.get o "connB" = None /\
  MessageWsService.removeClient "connB" o = mkOutcome (Normal tt) o [].
Proof.
  split; [reflexivity|].
  apply removeClient_without_record. reflexivity.
Defined.

(** ** The scenario *)

(** C8: from the empty registry, with Ada Lovelace as active user "u1" in the
    directory: registering connA succeeds; the name of connA's session is
    "Ada Lovelace"; registering connB for the same user succeeds and
    disconnects connA, and nothing else; after connA is unregistered the
    connected clients are exactly connB. *)
Theorem scenario_ada_lovelace :
  let r1 := MessageWsService.registerClient Scenario.directory Scenario.connA "u1"
              MessageWsService.init in
  let name := MessageWsService.getUserFullName (Socket.id Scenario.connA) (clients r1) in
  let r2 := MessageWsService.registerClient Scenario.directory Scenario.connB "u1"
              (clients name) in
  let r3 := MessageWsService.removeClient (Socket.id Scenario.connA) (clients r2) in
  let ids := MessageWsService.getConnectedClients (clients r3) in
  completion r1 = Normal tt /\
  disconnected r1 = [] /\
  completion name = Normal "Ada Lovelace" /\
  completion r2 = Normal tt /\
  disconnected r2 = [Scenario.connA] /\
  completion r3 = Normal tt /\
  completion ids = Normal [Socket.id Scenario.connB].
Proof.
  repeat split; vm_compute; reflexivity.
Qed.

(** ** Eviction *)

(** C3: if some record of the registry carries the id of the resolved
    user, [registerClient] succeeds and calls [disconnect()] exactly once: on
    the socket of the first such record in [Object.keys] order, where the scan
    stops.  When the registry holds one session per user that record is the
    only one with this user.  Afterwards the connected clients include the
    id of the new socket. *)
Theorem registerClient_evicts_first_match (o : ConnectedClients)
    (userRepository : UserRepository) (client : Socket.t) (userId : string)
    (u : User.t) :
  userRepository userId = Normal (Some u) ->
  User.isActive u = true ->
  (exists k c, Obj.get o k = Some c /\ User.id (user c) = User.id u) ->
  let r := MessageWsService.registerClient userRepository client userId o in
  exists k c pre post,
    Obj.keys o = pre ++ k :: post /\
    Obj.get o k = Some c /\
    User.id (user c) = User.id u /\
    (forall k' c', In k' pre -> Obj.get o k' = Some c' ->
                   User.id (user c') <> User.id u) /\
    (single_session_per_user o ->
     forall k' c', Obj.get o k' = Some c' ->
                   User.id (user c') = User.id u -> k' = k) /\
    completion r = Normal tt /\
    disconnected r = [socket c] /\
    exists ids,
      completion (MessageWsService.getConnectedClients (clients r)) = Normal ids /\
      In (Socket.id client) ids.
Proof.
  intros Hfind Hactive (k0 & c0 & G0 & E0) r. subst r.
  rewrite (registerClient_active o _ client userId u Hfind Hactive); simpl.
  unfold evicted.
  destruct (first_session_of o (Obj.keys o) (User.id u)) as [[k c]|] eqn:F.
  - destruct (first_session_some o _ _ k c F) as (pre & post & Hks & G & E & Hpre).
    exists k, c, pre, post. repeat split; auto.
    + intros Hone k' c' G' E'.
      destruct (string_dec k' k) as [|Hne]; [assumption|].
      exfalso. apply (Hone k' k c' c Hne G' G). congruence.
    + exists (Obj.keys (Obj.set o (Socket.id client) (mkClient client u))).
      split; [reflexivity|].
      apply In_keys. unfold has_record. rewrite get_set, String.eqb_refl.
      discriminate.
  - exfalso.
    assert (Hin : In k0 (Obj.keys o)) by (apply In_keys; unfold has_record; congruence).
    apply (first_session_none o (User.id u) (Obj.keys o)
             (fun k Hk => proj1 (In_keys o k) Hk) F k0 c0 Hin G0 E0).
Qed.

(** connB registers for the user whose session connA already holds. *)
Lemma registerClient_evicts_first_match_witness :
  let o := clients (call (Register Scenario.directory Scenario.connA "u1")
                      MessageWsService.init) in
  let r := MessageWsService.registerClient Scenario.directory Scenario.connB "u1" o in
  Scenario.directory "u1" = Normal (Some Scenario.ada) /\
  User.isActive Scenario.ada = true /\
  (exists k c, Obj.get o k = Some c /\ User.id (user c) = User.id Scenario.ada) /\
  exists k c pre post,
    Obj.keys o = pre ++ k :: post /\
    Obj.get o k = Some c /\
    User.id (user c) = User.id Scenario.ada /\
    (forall k' c', In k' pre -> Obj.get o k' = Some c' ->
                   User.id (user c') <> User.id Scenario.ada) /\
    (single_session_per_user o ->
     forall k' c', Obj.get o k' = Some c' ->
                   User.id (user c') = User.id Scenario.ada -> k' = k) /\
    completion r = Normal tt /\
    disconnected r = [socket c] /\
    exists ids,
      completion (MessageWsService.getConnectedClients (clients r)) = Normal ids /\
      In (Socket.id Scenario.connB) ids.
Proof.
  assert (Hsome : exists k c,
             Obj.get (clients (call (Register Scenario.directory Scenario.connA "u1")
                                 MessageWsService.init)) k = Some c /\
             User.id (user c) = User.id Scenario.ada).
  { exists "connA", (mkClient Scenario.connA Scenario.ada). split; reflexivity. }
  split; [reflexivity|]. split; [reflexivity|]. split; [exact Hsome|].
  exact (registerClient_evicts_first_match _ Scenario.directory Scenario.connB "u1"
           Scenario.ada eq_refl eq_refl Hsome).
Defined.

(** C9: when [registerClient] disconnects the socket of a record it found
    under [k], it has completed normally and that session still has a record
    when it returns: the same record as before unless [k] is also the id of
    the new socket, whose record is then written there.  Records under every
    identifier other than the new socket's are as before.  The evicted
    record goes only with a [removeClient] of [k]. *)
Theorem registerClient_keeps_evicted_record (o : ConnectedClients)
    (userRepository : UserRepository) (client : Socket.t) (userId : string)
    (k : string) (c : Client) :
  let r := MessageWsService.registerClient userRepository client userId o in
  Obj.get o k = Some c ->
  In (socket c) (disconnected r) ->
  completion r = Normal tt /\
  has_record (clients r) k /\
  (k <> Socket.id client -> Obj.get (clients r) k = Some c) /\
  (forall k', k' <> Socket.id client -> Obj.get (clients r) k' = Obj.get o k') /\
  Obj.get (clients (MessageWsService.removeClient k (clients r))) k = None.
Proof.
  intros r G Hin.
  assert (Hframe : forall k', k' <> Socket.id client ->
                              Obj.get (clients r) k' = Obj.get o k')
    by (intros k' Hk'; apply registerClient_frame; exact Hk').
  assert (Hdel : Obj.get (clients (MessageWsService.removeClient k (clients r))) k = None)
    by (run; rewrite get_delete, String.eqb_refl; reflexivity).
  destruct (userRepository userId) as [[u|]|e] eqn:Hfind;
    [destruct (User.isActive u) eqn:Hactive|..].
  - subst r.
    rewrite (registerClient_active o _ client userId u Hfind Hactive) in *.
    simpl in *. repeat split; auto.
    + unfold has_record. rewrite get_set.
      destruct (String.eqb (Socket.id client) k); congruence.
    + intros Hk. rewrite Hframe by exact Hk. exact G.
  - exfalso. subst r.
    destruct (registerClient_rejected o userRepository client userId) as [e He];
      [intros u' Hu'; congruence|].
    rewrite He in Hin. exact Hin.
  - exfalso. subst r.
    destruct (registerClient_rejected o userRepository client userId) as [e He];
      [intros u' Hu'; congruence|].
    rewrite He in Hin. exact Hin.
  - exfalso. subst r.
    destruct (registerClient_rejected o userRepository client userId) as [e' He];
      [intros u' Hu'; congruence|].
    rewrite He in Hin. exact Hin.
Qed.

(** connB registers for the user of connA's session; connA's record stays. *)
Lemma registerClient_keeps_evicted_record_witness :
  let o := clients (call (Register Scenario.directory Scenario.connA "u1")
                      MessageWsService.init) in
  let c := mkClient Scenario.connA Scenario.ada in
  let r := MessageWsService.registerClient Scenario.directory Scenario.connB "u1" o in
  Obj.get o "connA" = Some c /\
  In (socket c) (disconnected r) /\
  completion r = Normal tt /\
  has_record (clients r) "connA" /\
  ("connA" <> Socket.id Scenario.connB -> Obj.get (clients r) "connA" = Some c) /\
  (forall k', k' <> Socket.id Scenario.connB ->
              Obj.get (clients r) k' = Obj.get o k') /\
  Obj.get (clients (MessageWsService.removeClient "connA" (clients r))) "connA" = None.
Proof.
  split; [reflexivity|]. split; [left; reflexivity|].
  apply (registerClient_keeps_evicted_record _ Scenario.directory Scenario.connB "u1"
           "connA" (mkClient Scenario.connA Scenario.ada)).
  - reflexivity.
  - left; reflexivity.
Defined.

(** C10: registering a socket whose id already names a record does not
    fail on that account; the new record replaces the old one under that
    key, which keeps its place among the keys, and every other record is as
    before. *)
Theorem registerClient_overwrites (o : ConnectedClients)
    (userRepository : UserRepository) (client : Socket.t) (userId : string)
    (u : User.t) (old : Client) :
  userRepository userId = Normal (Some u) ->
  User.isActive u = true ->
  Obj.get o (Socket.id client) = Some old ->
  let r := MessageWsService.registerClient userRepository client userId o in
  completion r = Normal tt /\
  Obj.get (clients r) (Socket.id client) = Some (mkClient client u) /\
  Obj.keys (clients r) = Obj.keys o /\
  (forall k', k' <> Socket.id client -> Obj.get (clients r) k' = Obj.get o k').
Proof.
  intros Hfind Hactive Hold r.
  assert (Hframe : forall k', k' <> Socket.id client ->
                              Obj.get (clients r) k' = Obj.get o k')
    by (intros k' Hk'; apply registerClient_frame; exact Hk').
  subst r. rewrite (registerClient_active o _ client userId u Hfind Hactive) in *.
  simpl in *. repeat split; auto.
  - rewrite get_set, String.eqb_refl. reflexivity.
  - apply keys_set_present. unfold has_record. congruence.
Qed.

(** A second socket object arrives under connA's id, for another user. *)
Lemma registerClient_overwrites_witness :
  let o := clients (call (Register Scenario.directory Scenario.connA "u1")
                      MessageWsService.init) in
  let linus := User.mk "u2" "Linus" true in
  let userRepository : UserRepository := fun _ => Normal (Some linus) in
  let client := Socket.mk "connA" 7 in
  let r := MessageWsService.registerClient userRepository client "u2" o in
  userRepository "u2" = Normal (Some linus) /\
  User.isActive linus = true /\
  Obj.get o (Socket.id client) = Some (mkClient Scenario.connA Scenario.ada) /\
  completion r = Normal tt /\
  Obj.get (clients r) (Socket.id client) = Some (mkClient client linus) /\
  Obj.keys (clients r) = Obj.keys o /\
  (forall k', k' <> Socket.id client -> Obj.get (clients r) k' = Obj.get o k').
Proof.
  split; [reflexivity|]. split; [reflexivity|]. split; [reflexivity|].
  apply (registerClient_overwrites _ _ (Socket.mk "connA" 7) "u2"
           (User.mk "u2" "Linus" true) (mkClient Scenario.connA Scenario.ada));
    reflexivity.
Defined.

(** ** Snapshots *)

Lemma call_frame (c : Call) (o : ConnectedClients) (k : string) :
  session_of c <> k -> Obj.get (clients (call c o)) k = Obj.get o k.
Proof.
  destruct c as [userRepository client userId | clientId]; simpl; intros Hk.
  - apply registerClient_frame. congruence.
  - rewrite get_delete. destruct (String.eqb clientId k) eqn:E; [|reflexivity].
    apply String.eqb_eq in E. contradiction.
Qed.

Lemma after_calls_frame (cs : list Call) (o : ConnectedClients) (k : string) :
  Forall (fun c => session_of c <> k) cs ->
  Obj.get (after_calls cs o) k = Obj.get o k.
Proof.
  intros Hcs. revert o. induction Hcs as [|c rest Hc _ IH]; intros o; simpl.
  - reflexivity.
  - rewrite IH. apply call_frame. exact Hc.
Qed.

(** C7: once a session is registered, [getUserFullName] on its id returns
    the [fullName] of the user record the directory handed out at that
    registration, for as long as the session's own record is not rewritten or
    removed: whatever calls follow for other sessions, and whatever the
    directory answers to them (also, differently, for the same user). *)
Theorem getUserFullName_is_snapshot (o : ConnectedClients)
    (userRepository : UserRepository) (client : Socket.t) (userId : string)
    (u : User.t) (later : list Call) :
  userRepository userId = Normal (Some u) ->
  User.isActive u = true ->
  Forall (fun c => session_of c <> Socket.id client) later ->
  let registered :=
    clients (MessageWsService.registerClient userRepository client userId o) in
  completion (MessageWsService.getUserFullName (Socket.id client)
                (after_calls later registered))
  = Normal (User.fullName u).
Proof.
  intros Hfind Hactive Hlater registered. subst registered.
  rewrite (registerClient_active o _ client userId u Hfind Hactive); simpl.
  unfold MessageWsService.getUserFullName, bind, this_connectedClients; simpl.
  rewrite (after_calls_frame later _ _ Hlater).
  rewrite get_set, String.eqb_refl. reflexivity.
Qed.

(** Ada registers on connA; then the directory renames her and she also
    registers on connB.  connA's session still answers with the old name. *)
Lemma getUserFullName_is_snapshot_witness :
  let renamed : UserRepository :=
    fun _ => Normal (Some (User.mk "u1" "Ada King" true)) in
  let later := [Register renamed Scenario.connB "u1"; Unregister "connC"] in
  Scenario.directory "u1" = Normal (Some Scenario.ada) /\
  User.isActive Scenario.ada = true /\
  Forall (fun c => session_of c <> Socket.id Scenario.connA) later /\
  completion
    (MessageWsService.getUserFullName (Socket.id Scenario.connA)
       (after_calls later
          (clients (MessageWsService.registerClient Scenario.directory
                      Scenario.connA "u1" MessageWsService.init))))
  = Normal (User.fullName Scenario.ada).
Proof.
  assert (Hlater :
            Forall (fun c => session_of c <> Socket.id Scenario.connA)
              [Register (fun _ => Normal (Some (User.mk "u1" "Ada King" true)))
                 Scenario.connB "u1";
               Unregister "connC"])
    by (repeat constructor; discriminate).
  split; [reflexivity|]. split; [reflexivity|]. split; [exact Hlater|].
  exact (getUserFullName_is_snapshot MessageWsService.init Scenario.directory
           Scenario.connA "u1" Scenario.ada _ eq_refl eq_refl Hlater).
Defined.

(** ** One session per user *)

Lemma after_calls_app (cs cs' : list Call) (o : ConnectedClients) :
  after_calls (cs ++ cs') o = after_calls cs' (after_calls cs o).
Proof.
  revert o. induction cs as [|c rest IH]; intros o; simpl; [reflexivity|].
  apply IH.
Qed.

Lemma well_kept_init : well_kept MessageWsService.init.
Proof.
  split; intros k; intros; discriminate.
Qed.

Lemma well_kept_delete (o : ConnectedClients) (k : string) :
  well_kept o -> well_kept (Obj.delete o k).
Proof.
  intros [Hone Hkey]. split.
  - intros k1 k2 c1 c2 Hne G1 G2. rewrite get_delete in G1, G2.
    destruct (String.eqb k k1); [discriminate|].
    destruct (String.eqb k k2); [discriminate|].
    exact (Hone k1 k2 c1 c2 Hne G1 G2).
  - intros k1 c1 G1. rewrite get_delete in G1.
    destruct (String.eqb k k1); [discriminate|].
    exact (Hkey k1 c1 G1).
Qed.

(** Writing the record of a user nobody else in the object has. *)
Lemma well_kept_set (o : ConnectedClients) (client : Socket.t) (u : User.t) :
  well_kept o ->
  (forall k c, k <> Socket.id client -> Obj.get o k = Some c ->
               User.id (user c) <> User.id u) ->
  well_kept (Obj.set o (Socket.id client) (mkClient client u)).
Proof.
  intros [Hone Hkey] Hfresh. split.
  - intros k1 k2 c1 c2 Hne G1 G2. rewrite get_set in G1, G2.
    destruct (String.eqb (Socket.id client) k1) eqn:E1;
      destruct (String.eqb (Socket.id client) k2) eqn:E2.
    + apply String.eqb_eq in E1, E2. congruence.
    + apply String.eqb_eq in E1. apply String.eqb_neq in E2.
      injection G1 as <-. simpl. intros Heq.
      apply (Hfresh k2 c2 (fun H => E2 (eq_sym H)) G2). congruence.
    + apply String.eqb_eq in E2. apply String.eqb_neq in E1.
      injection G2 as <-. simpl.
      exact (Hfresh k1 c1 (fun H => E1 (eq_sym H)) G1).
    + exact (Hone k1 k2 c1 c2 Hne G1 G2).
  - intros k1 c1 G1. rewrite get_set in G1.
    destruct (String.eqb (Socket.id client) k1) eqn:E1.
    + apply String.eqb_eq in E1. injection G1 as <-. exact E1.
    + exact (Hkey k1 c1 G1).
Qed.

(** A call together with the disconnect notifications it causes keeps the
    registry well kept. *)
Lemma well_kept_step (c : Call) (o : ConnectedClients) :
  well_kept o -> well_kept (after_calls (c :: disconnect_flow c o) o).
Proof.
  intros Hwk. unfold disconnect_flow.
  destruct c as [userRepository client userId | clientId]; simpl.
  2:{ apply well_kept_delete. exact Hwk. }
  destruct (userRepository userId) as [[u|]|e] eqn:Hfind;
    [destruct (User.isActive u) eqn:Hactive|..].
  2-4: destruct (registerClient_rejected o userRepository client userId) as [e' ->];
       [intros u' Hu'; congruence | simpl; exact Hwk].
  rewrite (registerClient_active o _ client userId u Hfind Hactive); simpl.
  unfold evicted.
  destruct (first_session_of o (Obj.keys o) (User.id u)) as [[k c]|] eqn:F; simpl.
  - destruct (first_session_some o _ _ k c F) as (_ & _ & _ & G & E & _).
    destruct Hwk as [Hone Hkey]. rewrite (Hkey k c G).
    assert (Hwk' : well_kept (Obj.delete o k)) by (apply well_kept_delete; split; assumption).
    destruct Hwk' as [Hone' Hkey'].
    split.
    + intros k1 k2 c1 c2 Hne G1 G2.
      rewrite get_delete, get_set in G1, G2.
      destruct (String.eqb k k1) eqn:K1; [discriminate|].
      destruct (String.eqb k k2) eqn:K2; [discriminate|].
      apply String.eqb_neq in K1, K2.
      destruct (String.eqb (Socket.id client) k1) eqn:E1;
        destruct (String.eqb (Socket.id client) k2) eqn:E2.
      * apply String.eqb_eq in E1, E2. congruence.
      * injection G1 as <-. simpl. rewrite <- E.
        apply not_eq_sym. exact (Hone k2 k c2 c (not_eq_sym K2) G2 G).
      * injection G2 as <-. simpl. rewrite <- E.
        exact (Hone k1 k c1 c (not_eq_sym K1) G1 G).
      * exact (Hone k1 k2 c1 c2 Hne G1 G2).
    + intros k1 c1 G1. rewrite get_delete, get_set in G1.
      destruct (String.eqb k k1); [discriminate|].
      destruct (String.eqb (Socket.id client) k1) eqn:E1.
      * apply String.eqb_eq in E1. injection G1 as <-. exact E1.
      * exact (Hkey k1 c1 G1).
  - apply well_kept_set; [exact Hwk|].
    intros k c _ G.
    apply (first_session_none o (User.id u) (Obj.keys o)
             (fun k' Hk' => proj1 (In_keys o k') Hk') F k c); [|exact G].
    apply In_keys. unfold has_record. congruence.
Qed.

Lemma well_kept_with_disconnect_flow (cs : list Call) (o : ConnectedClients) :
  well_kept o -> well_kept (after_calls (with_disconnect_flow cs o) o).
Proof.
  revert o. induction cs as [|c rest IH]; intros o Hwk; [exact Hwk|].
  cbn [with_disconnect_flow]. rewrite after_calls_app.
  apply IH. apply well_kept_step. exact Hwk.
Qed.

Example with_disconnect_flow_scenario :
  with_disconnect_flow
    [Register Scenario.directory Scenario.connA "u1";
     Register Scenario.directory Scenario.connB "u1"]
    MessageWsService.init
  = [Register Scenario.directory Scenario.connA "u1";
     Register Scenario.directory Scenario.connB "u1";
     Unregister "connA"].
Proof. reflexivity. Qed.

(** C1, as stated, fails: after connA and then connB register for user "u1",
    the registry holds a record for each of them, both with [user.id] "u1";
    [registerClient] disconnects connA's socket but does not delete its
    record. *)
Lemma two_sessions_after_second_register :
  ~ single_session_per_user
      (after_calls
         [Register Scenario.directory Scenario.connA "u1";
          Register Scenario.directory Scenario.connB "u1"]
         MessageWsService.init).
Proof.
  intros Hone.
  apply (Hone "connA" "connB"
           (mkClient Scenario.connA Scenario.ada)
           (mkClient Scenario.connB Scenario.ada)).
  - discriminate.
  - reflexivity.
  - reflexivity.
  - reflexivity.
Qed.

(** C1, amended: in every sequence of register and unregister calls on a
    fresh registry in which each call is followed at once by the unregister
    calls of the transport's disconnect notifications for the sockets it
    disconnected, the registry at the end holds no two records under
    different session identifiers with the same [user.id] (and each record
    is filed under its own socket's id). *)
Theorem single_session_with_disconnect_flow (cs : list Call) :
  let o := after_calls (with_disconnect_flow cs MessageWsService.init)
             MessageWsService.init in
  single_session_per_user o /\ keyed_by_socket_id o.
Proof.
  exact (well_kept_with_disconnect_flow cs MessageWsService.init well_kept_init).
Qed.

(** * Further properties of the service *)

(** ** More on the object *)

Lemma names_set_absent (o : ConnectedClients) (k : string) (v : Client) :
  Obj.get o k = None -> map fst (Obj.set o k v) = map fst o ++ [k].
Proof.
  induction o as [|[k0 v0] rest IH]; simpl; [reflexivity|].
  destruct (String.eqb k0 k); [discriminate|].
  intros H. simpl. rewrite (IH H). reflexivity.
Qed.

Lemma delete_set_absent (o : ConnectedClients) (k : string) (v : Client) :
  Obj.get o k = None -> Obj.delete (Obj.set o k v) k = o.
Proof.
  induction o as [|[k0 v0] rest IH]; simpl.
  - rewrite String.eqb_refl. reflexivity.
  - destruct (String.eqb k0 k) eqn:E; [discriminate|].
    intros H. simpl. rewrite E, (IH H). reflexivity.
Qed.

Lemma delete_delete (o : ConnectedClients) (k1 k2 : string) :
  Obj.delete (Obj.delete o k1) k2 = Obj.delete (Obj.delete o k2) k1.
Proof.
  induction o as [|[k0 v0] rest IH]; simpl; [reflexivity|].
  destruct (String.eqb k0 k1) eqn:E1; destruct (String.eqb k0 k2) eqn:E2;
    simpl; rewrite ?E1, ?E2; congruence.
Qed.

Lemma set_delete_other (o : ConnectedClients) (k k' : string) (v : Client) :
  k <> k' ->
  Obj.set (Obj.delete o k') k v = Obj.delete (Obj.set o k v) k'.
Proof.
  intros Hne. induction o as [|[k0 v0] rest IH]; simpl.
  - apply String.eqb_neq in Hne. rewrite Hne. reflexivity.
  - destruct (String.eqb k0 k') eqn:E'; destruct (String.eqb k0 k) eqn:E; simpl;
      rewrite ?E', ?E; try congruence.
    apply String.eqb_eq in E, E'. congruence.
Qed.

(** The three ways a call can leave the object. *)
Lemma call_clients (c : Call) (o : ConnectedClients) :
  clients (call c o) = o
  \/ (exists client u,
        session_of c = Socket.id client /\ User.isActive u = true /\
        clients (call c o) = Obj.set o (Socket.id client) (mkClient client u))
  \/ clients (call c o) = Obj.delete o (session_of c).
Proof.
  destruct c as [userRepository client userId | clientId]; simpl.
  2:{ right; right; reflexivity. }
  destruct (userRepository userId) as [[u|]|e] eqn:Hfind;
    [destruct (User.isActive u) eqn:Hactive|..].
  2-4: left;
       destruct (registerClient_rejected o userRepository client userId) as [e' ->];
       [intros u' Hu'; congruence | reflexivity].
  right; left. exists client, u.
  rewrite (registerClient_active o _ client userId u Hfind Hactive).
  repeat split; assumption.
Qed.

(** A property of the object that the empty object has and that every
    write and delete keeps holds after any sequence of calls. *)
Lemma after_calls_invariant (P : ConnectedClients -> Prop) :
  (forall o client u, User.isActive u = true -> P o ->
                      P (Obj.set o (Socket.id client) (mkClient client u))) ->
  (forall o k, P o -> P (Obj.delete o k)) ->
  forall cs o, P o -> P (after_calls cs o).
Proof.
  intros Hset Hdel cs. induction cs as [|c rest IH]; intros o Ho; [exact Ho|].
  simpl. apply IH.
  destruct (call_clients c o) as [-> | [(client & u & _ & Hactive & ->) | ->]]; auto.
Qed.

(** ** Failures of registerClient *)

(** X1: when the directory lookup itself fails, [registerClient] fails with
    that same exception; the registry is untouched and no socket is
    disconnected. *)
Theorem registerClient_lookup_rejected (o : ConnectedClients)
    (userRepository : UserRepository) (client : Socket.t) (userId : string)
    (e : Exn) :
  userRepository userId = Throw e ->
  MessageWsService.registerClient userRepository client userId o
  = mkOutcome (Throw e) o [].
Proof.
  intros Hfind. unfold MessageWsService.registerClient, bind.
  rewrite Hfind. reflexivity.
Qed.

Lemma registerClient_lookup_rejected_witness :
  let o := clients (call (Register Scenario.directory Scenario.connA "u1")
                      MessageWsService.init) in
  let down : UserRepository := fun _ => Throw (Error "connection refused") in
  down "u1" = Throw (Error "connection refused") /\
  MessageWsService.registerClient down Scenario.connB "u1" o
  = mkOutcome (Throw (Error "connection refused")) o [].
Proof.
  split; [reflexivity|].
  apply registerClient_lookup_rejected. reflexivity.
Defined.

(** X2: whenever [registerClient] throws, for whatever reason, it has
    changed nothing: the registry is as before and no socket was
    disconnected.  What it throws is "User not found", "User is not active",
    or what the directory lookup threw. *)
Theorem registerClient_throw_changes_nothing (o : ConnectedClients)
    (userRepository : UserRepository) (client : Socket.t) (userId : string)
    (e : Exn) :
  let r := MessageWsService.registerClient userRepository client userId o in
  completion r = Throw e ->
  clients r = o /\
  disconnected r = [] /\
  (e = UserNotFound \/ e = UserInactive \/ userRepository userId = Throw e).
Proof.
  intros r Hthrow. subst r.
  destruct (userRepository userId) as [[u|]|e'] eqn:Hfind;
    [destruct (User.isActive u) eqn:Hactive|..].
  - rewrite (registerClient_active o _ client userId u Hfind Hactive) in Hthrow.
    discriminate.
  - revert Hthrow. unfold MessageWsService.registerClient, bind.
    rewrite Hfind; simpl. rewrite Hactive; simpl.
    intros [= <-]. auto.
  - revert Hthrow. unfold MessageWsService.registerClient, bind.
    rewrite Hfind; simpl. intros [= <-]. auto.
  - revert Hthrow. unfold MessageWsService.registerClient, bind.
    rewrite Hfind; simpl. intros [= <-]. auto.
Qed.

Lemma registerClient_throw_changes_nothing_witness :
  let o := clients (call (Register Scenario.directory Scenario.connA "u1")
                      MessageWsService.init) in
  let r := MessageWsService.registerClient Scenario.directory Scenario.connB "u2" o in
  completion r = Throw UserNotFound /\
  clients r = o /\
  disconnected r = [] /\
  (UserNotFound = UserNotFound \/ UserNotFound = UserInactive
   \/ Scenario.directory "u2" = Throw UserNotFound).
Proof.
  split; [reflexivity|].
  apply (registerClient_throw_changes_nothing _ Scenario.directory Scenario.connB "u2").
  reflexivity.
Defined.

(** ** The scan, seen from outside *)

(** X3: [checkUserConnection] is a pure scan as far as the registry goes: for
    every registry and user it completes normally and leaves the registry
    as it is.  It disconnects at most one socket, and only the socket of a
    record whose [user.id] is the given user's. *)
Theorem checkUserConnection_disconnects_at_most_one (o : ConnectedClients)
    (u : User.t) :
  let r := MessageWsService.checkUserConnection u o in
  completion r = Normal tt /\
  clients r = o /\
  length (disconnected r) <= 1 /\
  forall s, In s (disconnected r) ->
            exists k c, Obj.get o k = Some c /\ socket c = s /\
                        User.id (user c) = User.id u.
Proof.
  intros r. subst r. rewrite checkUserConnection_spec; simpl.
  unfold evicted.
  destruct (first_session_of o (Obj.keys o) (User.id u)) as [[k c]|] eqn:F; simpl.
  - destruct (first_session_some o _ _ k c F) as (_ & _ & _ & G & E & _).
    repeat split; auto.
    intros s [<- | []]. exists k, c. auto.
  - repeat split; auto. intros s [].
Qed.

(** X4: when no record of the registry carries the id of the resolved,
    active user, [registerClient] disconnects no socket at all: it only
    writes the new record. *)
Theorem registerClient_first_session (o : ConnectedClients)
    (userRepository : UserRepository) (client : Socket.t) (userId : string)
    (u : User.t) :
  userRepository userId = Normal (Some u) ->
  User.isActive u = true ->
  (forall k c, Obj.get o k = Some c -> User.id (user c) <> User.id u) ->
  MessageWsService.registerClient userRepository client userId o
  = mkOutcome (Normal tt) (Obj.set o (Socket.id client) (mkClient client u)) [].
Proof.
  intros Hfind Hactive Hnone.
  rewrite (registerClient_active o _ client userId u Hfind Hactive).
  unfold evicted.
  destruct (first_session_of o (Obj.keys o) (User.id u)) as [[k c]|] eqn:F;
    [|reflexivity].
  destruct (first_session_some o _ _ k c F) as (_ & _ & _ & G & E & _).
  exfalso. exact (Hnone k c G E).
Qed.

(** Linus registers while only Ada is connected. *)
Lemma registerClient_first_session_witness :
  let o := clients (call (Register Scenario.directory Scenario.connA "u1")
                      MessageWsService.init) in
  let linus := User.mk "u2" "Linus" true in
  let userRepository : UserRepository := fun _ => Normal (Some linus) in
  userRepository "u2" = Normal (Some linus) /\
  User.isActive linus = true /\
  (forall k c, Obj.get o k = Some c -> User.id (user c) <> User.id linus) /\
  MessageWsService.registerClient userRepository Scenario.connB "u2" o
  = mkOutcome (Normal tt)
      (Obj.set o (Socket.id Scenario.connB) (mkClient Scenario.connB linus)) [].
Proof.
  assert (Hnone : forall k c,
             Obj.get (clients (call (Register Scenario.directory Scenario.connA "u1")
                                 MessageWsService.init)) k = Some c ->
             User.id (user c) <> User.id (User.mk "u2" "Linus" true)).
  { intros k c.
    change (clients (call (Register Scenario.directory Scenario.connA "u1")
                       MessageWsService.init))
      with [("connA", mkClient Scenario.connA Scenario.ada)].
    unfold Obj.get. destruct (String.eqb "connA" k); [|discriminate].
    intros H. injection H as <-. discriminate. }
  split; [reflexivity|]. split; [reflexivity|]. split; [exact Hnone|].
  exact (registerClient_first_session _ (fun _ => Normal (Some (User.mk "u2" "Linus" true)))
           Scenario.connB "u2" (User.mk "u2" "Linus" true) eq_refl eq_refl Hnone).
Defined.

(** ** Queries *)

(** X5: [getConnectedClients] never throws and changes nothing, and the
    identifiers it returns are exactly those for which [getUserFullName]
    succeeds; for each of them [getUserFullName] returns the [fullName] of the
    stored user and changes nothing either. *)
Theorem getConnectedClients_lists_named_sessions (o : ConnectedClients)
    (sessionId : string) :
  exists ids,
    MessageWsService.getConnectedClients o = mkOutcome (Normal ids) o [] /\
    (In sessionId ids <->
     exists c, Obj.get o sessionId = Some c /\
               MessageWsService.getUserFullName sessionId o
               = mkOutcome (Normal (User.fullName (user c))) o []) /\
    (In sessionId ids <->
     exists name,
       completion (MessageWsService.getUserFullName sessionId o) = Normal name).
Proof.
  exists (Obj.keys o). split; [reflexivity|].
  rewrite In_keys. unfold has_record. run.
  destruct (Obj.get o sessionId) as [c|]; simpl; split; split.
  - intros _. exists c. split; reflexivity.
  - discriminate.
  - intros _. eexists; reflexivity.
  - discriminate.
  - congruence.
  - intros (c & Hc & _). discriminate.
  - congruence.
  - intros (name & Hname). discriminate.
Qed.

(** ** Removal *)

(** X6: [removeClient] always completes normally and never disconnects a
    socket.  Afterwards the session has no record, every other session's
    record is as before, and removing the same session again changes
    nothing. *)
Theorem removeClient_only_that_session (o : ConnectedClients) (sessionId : string) :
  let r := MessageWsService.removeClient sessionId o in
  completion r = Normal tt /\
  disconnected r = [] /\
  Obj.get (clients r) sessionId = None /\
  (forall k, k <> sessionId -> Obj.get (clients r) k = Obj.get o k) /\
  MessageWsService.removeClient sessionId (clients r)
  = mkOutcome (Normal tt) (clients r) [].
Proof.
  intros r. subst r.
  pose proof (removeClient_forgets o sessionId) as Hgone.
  repeat split; auto.
  - intros k Hk. simpl. rewrite get_delete.
    destruct (String.eqb sessionId k) eqn:E; [|reflexivity].
    apply String.eqb_eq in E. congruence.
  - simpl in *. run. rewrite (delete_absent _ _ Hgone). reflexivity.
Qed.

(** X7: two removals can be done in either order. *)
Theorem removeClient_commutes (o : ConnectedClients) (k1 k2 : string) :
  clients (MessageWsService.removeClient k2
             (clients (MessageWsService.removeClient k1 o)))
  = clients (MessageWsService.removeClient k1
               (clients (MessageWsService.removeClient k2 o))).
Proof.
  simpl. apply delete_delete.
Qed.

(** X8: registering a socket under an identifier that had no record and then
    removing that identifier gives back exactly the registry there was
    before, whether or not the registration went through. *)
Theorem register_then_remove_restores (o : ConnectedClients)
    (userRepository : UserRepository) (client : Socket.t) (userId : string) :
  Obj.get o (Socket.id client) = None ->
  clients (MessageWsService.removeClient (Socket.id client)
             (clients (MessageWsService.registerClient userRepository client userId o)))
  = o.
Proof.
  intros Hnone.
  destruct (call_clients (Register userRepository client userId) o)
    as [H | [(client' & u & Hid & _ & H) | H]]; simpl in *; rewrite H.
  - apply delete_absent. exact Hnone.
  - rewrite <- Hid. apply delete_set_absent. exact Hnone.
  - rewrite (delete_absent _ _ Hnone). apply delete_absent. exact Hnone.
Qed.

Lemma register_then_remove_restores_witness :
  let o := clients (call (Register Scenario.directory Scenario.connA "u1")
                      MessageWsService.init) in
  Obj.get o (Socket.id Scenario.connB) = None /\
  clients (MessageWsService.removeClient (Socket.id Scenario.connB)
             (clients (MessageWsService.registerClient Scenario.directory
                         Scenario.connB "u1" o)))
  = o.
Proof.
  split; [reflexivity|].
  apply register_then_remove_restores. reflexivity.
Defined.

(** X9: a registration and the removal of a different session identifier
    leave the same registry in either order. *)
Theorem register_remove_other_commute (o : ConnectedClients)
    (userRepository : UserRepository) (client : Socket.t) (userId : string)
    (other : string) :
  Socket.id client <> other ->
  clients (MessageWsService.removeClient other
             (clients (MessageWsService.registerClient userRepository client userId o)))
  = clients (MessageWsService.registerClient userRepository client userId
               (clients (MessageWsService.removeClient other o))).
Proof.
  intros Hne. simpl.
  destruct (userRepository userId) as [[u|]|e] eqn:Hfind;
    [destruct (User.isActive u) eqn:Hactive|..].
  2-4: destruct (registerClient_rejected o userRepository client userId) as [e1 ->];
       [intros u' Hu'; congruence|];
       destruct (registerClient_rejected (Obj.delete o other) userRepository
                   client userId) as [e2 ->];
       [intros u' Hu'; congruence | reflexivity].
  rewrite !(registerClient_active _ _ client userId u Hfind Hactive); simpl.
  symmetry. apply set_delete_other. exact Hne.
Qed.

Lemma register_remove_other_commute_witness :
  let o := clients (call (Register Scenario.directory Scenario.connA "u1")
                      MessageWsService.init) in
  Socket.id Scenario.connB <> "connA" /\
  clients (MessageWsService.removeClient "connA"
             (clients (MessageWsService.registerClient Scenario.directory
                         Scenario.connB "u1" o)))
  = clients (MessageWsService.registerClient Scenario.directory Scenario.connB "u1"
               (clients (MessageWsService.removeClient "connA" o))).
Proof.
  split; [discriminate|].
  apply register_remove_other_commute. discriminate.
Defined.

(** ** What every reachable registry satisfies *)

Lemma NoDup_insert_index (k : string) (ks : list string) :
  ~ In k ks -> NoDup ks -> NoDup (Obj.insert_index k ks).
Proof.
  induction ks as [|k' rest IH]; simpl; intros Hk Hks.
  - constructor; [tauto | constructor].
  - destruct (Obj.index_leb k k').
    + constructor; [exact Hk | exact Hks].
    + inversion Hks as [|? ? Hk' Hrest]; subst.
      constructor.
      * rewrite In_insert_index. intros [-> | H]; tauto.
      * apply IH; tauto.
Qed.

Lemma NoDup_sort_index (ks : list string) :
  NoDup ks -> NoDup (Obj.sort_index ks).
Proof.
  induction 1 as [|k rest Hk _ IH]; simpl; [constructor|].
  apply NoDup_insert_index; [|exact IH].
  rewrite In_sort_index. exact Hk.
Qed.

Lemma NoDup_keys (o : ConnectedClients) :
  NoDup (map fst o) -> NoDup (Obj.keys o).
Proof.
  intros Hnames. unfold Obj.keys. apply NoDup_app.
  - apply NoDup_sort_index, NoDup_filter, Hnames.
  - apply NoDup_filter, Hnames.
  - intros k. rewrite In_sort_index, !filter_In.
    intros [_ Hin] [_ Hout]. rewrite Hin in Hout. discriminate.
Qed.

Lemma NoDup_names_set (o : ConnectedClients) (k : string) (v : Client) :
  NoDup (map fst o) -> NoDup (map fst (Obj.set o k v)).
Proof.
  intros Hnames. destruct (Obj.get o k) as [c|] eqn:G.
  - rewrite names_set_present by congruence. exact Hnames.
  - rewrite names_set_absent by exact G.
    apply NoDup_app; [exact Hnames | constructor; [tauto | constructor] |].
    intros k' Hin [<- | []]. apply In_names in Hin. congruence.
Qed.

Lemma NoDup_names_delete (o : ConnectedClients) (k : string) :
  NoDup (map fst o) -> NoDup (map fst (Obj.delete o k)).
Proof.
  induction o as [|[k0 v0] rest IH]; simpl; [auto|].
  intros Hnames. inversion Hnames as [|? ? Hk0 Hrest]; subst.
  destruct (String.eqb k0 k) eqn:E; [auto|].
  simpl. constructor; [|auto].
  rewrite In_names, get_delete. rewrite In_names in Hk0.
  destruct (String.eqb k k0); tauto.
Qed.

(** X10: after any sequence of register and unregister calls on a fresh
    registry, every record is filed under the id of the socket it holds. *)
Theorem records_keyed_by_socket_id (cs : list Call) :
  keyed_by_socket_id (after_calls cs MessageWsService.init).
Proof.
  apply (after_calls_invariant keyed_by_socket_id).
  - intros o client u _ Hkey k c. rewrite get_set.
    destruct (String.eqb (Socket.id client) k) eqn:E.
    + apply String.eqb_eq in E. intros [= <-]. exact E.
    + apply Hkey.
  - intros o k Hkey k' c. rewrite get_delete.
    destruct (String.eqb k k'); [discriminate | apply Hkey].
  - intros k c. discriminate.
Qed.

(** X11: after any sequence of register and unregister calls on a fresh
    registry, every stored user record is one that was active when it was
    stored: an inactive user never gets a record. *)
Theorem stored_users_active (cs : list Call) (k : string) (c : Client) :
  Obj.get (after_calls cs MessageWsService.init) k = Some c ->
  User.isActive (user c) = true.
Proof.
  revert k c.
  apply (after_calls_invariant
           (fun o => forall k c, Obj.get o k = Some c -> User.isActive (user c) = true)).
  - intros o client u Hactive Ho k c. rewrite get_set.
    destruct (String.eqb (Socket.id client) k).
    + intros [= <-]. exact Hactive.
    + apply Ho.
  - intros o k0 Ho k c. rewrite get_delete.
    destruct (String.eqb k0 k); [discriminate | apply Ho].
  - intros k c. discriminate.
Qed.

Lemma stored_users_active_witness :
  let cs := [Register Scenario.directory Scenario.connA "u1";
             Register (fun _ => Normal (Some (User.mk "u2" "Grace Hopper" false)))
               Scenario.connB "u2"] in
  Obj.get (after_calls cs MessageWsService.init) "connA"
  = Some (mkClient Scenario.connA Scenario.ada) /\
  User.isActive (user (mkClient Scenario.connA Scenario.ada)) = true.
Proof.
  split; [reflexivity|].
  apply (stored_users_active
           [Register Scenario.directory Scenario.connA "u1";
            Register (fun _ => Normal (Some (User.mk "u2" "Grace Hopper" false)))
              Scenario.connB "u2"]
           "connA").
  reflexivity.
Defined.

(** X12: after any sequence of register and unregister calls on a fresh
    registry, [getConnectedClients] returns a list without repetitions. *)
Theorem getConnectedClients_no_duplicates (cs : list Call) :
  exists ids,
    completion (MessageWsService.getConnectedClients
                  (after_calls cs MessageWsService.init)) = Normal ids /\
    NoDup ids.
Proof.
  eexists. split; [reflexivity|]. apply NoDup_keys.
  apply (after_calls_invariant (fun o => NoDup (map fst o))).
  - intros o client u _. apply NoDup_names_set.
  - intros o k. apply NoDup_names_delete.
  - constructor.
Qed.

(** ** Enumeration order and stale records *)

Lemma keys_set_absent (o : ConnectedClients) (k : string) (v : Client) :
  Obj.get o k = None -> Obj.is_index k = false ->
  Obj.keys (Obj.set o k v) = Obj.keys o ++ [k].
Proof.
  intros Hnone Hstr. unfold Obj.keys.
  rewrite names_set_absent by exact Hnone.
  rewrite !filter_app. simpl. rewrite Hstr. simpl.
  rewrite app_nil_r, app_assoc. reflexivity.
Qed.

(** The scan passes over keys whose records belong to other users. *)
Lemma first_session_skip (o : ConnectedClients) (uid : string)
    (pre rest : list string) :
  (forall k, In k pre ->
             exists c, Obj.get o k = Some c /\ User.id (user c) <> uid) ->
  first_session_of o (pre ++ rest) uid = first_session_of o rest uid.
Proof.
  induction pre as [|k0 pre IH]; intros Hpre; [reflexivity|].
  simpl. destruct (Hpre k0 (or_introl eq_refl)) as (c & -> & Hc).
  apply String.eqb_neq in Hc. rewrite Hc.
  apply IH. intros k Hk. apply Hpre. right. exact Hk.
Qed.

Lemma evicted_none (o : ConnectedClients) (uid : string) :
  (forall k x, Obj.get o k = Some x -> User.id (user x) <> uid) ->
  evicted o uid = [].
Proof.
  intros Hfresh. unfold evicted.
  destruct (first_session_of o (Obj.keys o) uid) as [[k x]|] eqn:F; [|reflexivity].
  destruct (first_session_some o _ _ k x F) as (_ & _ & _ & G & E & _).
  exfalso. exact (Hfresh k x G E).
Qed.

(** X13: a socket that registers under an identifier which has no record
    yet, and which is not an array index, comes last in what
    [getConnectedClients] returns; the identifiers before it keep their
    order. *)
Theorem registerClient_lists_new_session_last (o : ConnectedClients)
    (userRepository : UserRepository) (client : Socket.t) (userId : string)
    (u : User.t) :
  userRepository userId = Normal (Some u) ->
  User.isActive u = true ->
  Obj.get o (Socket.id client) = None ->
  Obj.is_index (Socket.id client) = false ->
  let r := MessageWsService.registerClient userRepository client userId o in
  exists ids,
    completion (MessageWsService.getConnectedClients o) = Normal ids /\
    completion (MessageWsService.getConnectedClients (clients r))
    = Normal (ids ++ [Socket.id client]).
Proof.
  intros Hfind Hactive Hnone Hstr r. subst r.
  exists (Obj.keys o). split; [reflexivity|].
  rewrite (registerClient_active o _ client userId u Hfind Hactive); simpl.
  rewrite keys_set_absent by assumption. reflexivity.
Qed.

Lemma registerClient_lists_new_session_last_witness :
  let o := clients (call (Register Scenario.directory Scenario.connA "u1")
                      MessageWsService.init) in
  let r := MessageWsService.registerClient Scenario.directory Scenario.connB "u1" o in
  Scenario.directory "u1" = Normal (Some Scenario.ada) /\
  User.isActive Scenario.ada = true /\
  Obj.get o (Socket.id Scenario.connB) = None /\
  Obj.is_index (Socket.id Scenario.connB) = false /\
  exists ids,
    completion (MessageWsService.getConnectedClients o) = Normal ids /\
    completion (MessageWsService.getConnectedClients (clients r))
    = Normal (ids ++ [Socket.id Scenario.connB]).
Proof.
  split; [reflexivity|]. split; [reflexivity|].
  split; [reflexivity|]. split; [reflexivity|].
  apply (registerClient_lists_new_session_last _ Scenario.directory Scenario.connB
           "u1" Scenario.ada); reflexivity.
Defined.

(** X14: stale records shadow live ones.  Let sockets [a] and then [b]
    register for the same user, under fresh identifiers that are not array
    indices, in a registry without a record for that user, and let nobody
    remove [a]'s record.  The second registration disconnects [a]; a third
    registration for that user disconnects [a] once more and nothing else, so
    [b], unless it is the very same socket object, stays connected. *)
Theorem third_register_disconnects_first_again (o : ConnectedClients)
    (userRepository : UserRepository) (a b c : Socket.t) (userId : string)
    (u : User.t) :
  userRepository userId = Normal (Some u) ->
  User.isActive u = true ->
  (forall k x, Obj.get o k = Some x -> User.id (user x) <> User.id u) ->
  Obj.get o (Socket.id a) = None ->
  Obj.get o (Socket.id b) = None ->
  Socket.id a <> Socket.id b ->
  Obj.is_index (Socket.id a) = false ->
  Obj.is_index (Socket.id b) = false ->
  let r1 := MessageWsService.registerClient userRepository a userId o in
  let r2 := MessageWsService.registerClient userRepository b userId (clients r1) in
  let r3 := MessageWsService.registerClient userRepository c userId (clients r2) in
  disconnected r1 = [] /\
  disconnected r2 = [a] /\
  disconnected r3 = [a] /\
  (b <> a -> ~ In b (disconnected r3)).
Proof.
  intros Hfind Hactive Hfresh Ha Hb Hab Hia Hib r1 r2 r3.
  assert (E1 : r1 = mkOutcome (Normal tt)
                      (Obj.set o (Socket.id a) (mkClient a u)) [])
    by (subst r1; rewrite (registerClient_active o _ a userId u Hfind Hactive),
          (evicted_none o _ Hfresh); reflexivity).
  subst r3 r2. rewrite E1. clear r1 E1. simpl.
  set (o1 := Obj.set o (Socket.id a) (mkClient a u)).
  assert (Hb1 : Obj.get o1 (Socket.id b) = None).
  { unfold o1. rewrite get_set.
    apply String.eqb_neq in Hab. rewrite Hab. exact Hb. }
  assert (Hk1 : Obj.keys o1 = Obj.keys o ++ [Socket.id a])
    by (apply keys_set_absent; assumption).
  assert (Hold1 : forall k, In k (Obj.keys o) ->
                    exists x, Obj.get o1 k = Some x /\ User.id (user x) <> User.id u).
  { intros k Hk. apply In_keys in Hk. unfold has_record in Hk.
    destruct (Obj.get o k) as [x|] eqn:G; [|congruence].
    exists x. split; [|exact (Hfresh k x G)].
    unfold o1. rewrite get_set.
    destruct (String.eqb (Socket.id a) k) eqn:E; [|exact G].
    apply String.eqb_eq in E. congruence. }
  assert (Ga1 : Obj.get o1 (Socket.id a) = Some (mkClient a u))
    by (unfold o1; rewrite get_set, String.eqb_refl; reflexivity).
  assert (Hev1 : evicted o1 (User.id u) = [a]).
  { unfold evicted. rewrite Hk1, (first_session_skip o1 _ _ _ Hold1).
    simpl. rewrite Ga1. simpl. rewrite String.eqb_refl. reflexivity. }
  rewrite (registerClient_active o1 _ b userId u Hfind Hactive). simpl.
  set (o2 := Obj.set o1 (Socket.id b) (mkClient b u)).
  assert (Hk2 : Obj.keys o2 = Obj.keys o ++ [Socket.id a; Socket.id b]).
  { unfold o2. rewrite keys_set_absent by assumption.
    rewrite Hk1, <- app_assoc. reflexivity. }
  assert (Hold2 : forall k, In k (Obj.keys o) ->
                    exists x, Obj.get o2 k = Some x /\ User.id (user x) <> User.id u).
  { intros k Hk. destruct (Hold1 k Hk) as (x & G & Hx).
    exists x. split; [|exact Hx].
    unfold o2. rewrite get_set.
    destruct (String.eqb (Socket.id b) k) eqn:E; [|exact G].
    apply String.eqb_eq in E. congruence. }
  assert (Ga2 : Obj.get o2 (Socket.id a) = Some (mkClient a u)).
  { unfold o2. rewrite get_set.
    destruct (String.eqb (Socket.id b) (Socket.id a)) eqn:E; [|exact Ga1].
    apply String.eqb_eq in E. congruence. }
  assert (Hev2 : evicted o2 (User.id u) = [a]).
  { unfold evicted. rewrite Hk2, (first_session_skip o2 _ _ _ Hold2).
    simpl. rewrite Ga2. simpl. rewrite String.eqb_refl. reflexivity. }
  rewrite (registerClient_active o2 _ c userId u Hfind Hactive). simpl.
  rewrite Hev1, Hev2. repeat split.
  intros Hne [H | []]. congruence.
Qed.

(** Ada logs in on connA, connB and connC in turn, on a fresh registry. *)
Lemma third_register_disconnects_first_again_witness :
  let o := MessageWsService.init in
  let connC := Socket.mk "connC" 3 in
  let r1 := MessageWsService.registerClient Scenario.directory Scenario.connA "u1" o in
  let r2 := MessageWsService.registerClient Scenario.directory Scenario.connB "u1"
              (clients r1) in
  let r3 := MessageWsService.registerClient Scenario.directory connC "u1"
              (clients r2) in
  Scenario.directory "u1" = Normal (Some Scenario.ada) /\
  User.isActive Scenario.ada = true /\
  (forall k x, Obj.get o k = Some x -> User.id (user x) <> User.id Scenario.ada) /\
  Obj.get o (Socket.id Scenario.connA) = None /\
  Obj.get o (Socket.id Scenario.connB) = None /\
  Socket.id Scenario.connA <> Socket.id Scenario.connB /\
  Obj.is_index (Socket.id Scenario.connA) = false /\
  Obj.is_index (Socket.id Scenario.connB) = false /\
  disconnected r1 = [] /\
  disconnected r2 = [Scenario.connA] /\
  disconnected r3 = [Scenario.connA] /\
  (Scenario.connB <> Scenario.connA -> ~ In Scenario.connB (disconnected r3)).
Proof.
  assert (Hfresh : forall k x, Obj.get MessageWsService.init k = Some x ->
                               User.id (user x) <> User.id Scenario.ada)
    by (intros k x; discriminate).
  assert (Hab : Socket.id Scenario.connA <> Socket.id Scenario.connB)
    by discriminate.
  split; [reflexivity|]. split; [reflexivity|]. split; [exact Hfresh|].
  split; [reflexivity|]. split; [reflexivity|]. split; [exact Hab|].
  split; [reflexivity|]. split; [reflexivity|].
  exact (third_register_disconnects_first_again MessageWsService.init
           Scenario.directory Scenario.connA Scenario.connB (Socket.mk "connC" 3)
           "u1" Scenario.ada eq_refl eq_refl Hfresh eq_refl eq_refl Hab
           eq_refl eq_refl).
Defined.

(** ** Who is listed *)

(** X15: a registration that goes through adds the identifier of its socket
    to the connected clients and takes none away, not even the one of the
    session it has just disconnected. *)
Theorem registerClient_listing (o : ConnectedClients)
    (userRepository : UserRepository) (client : Socket.t) (userId : string)
    (k : string) :
  let r := MessageWsService.registerClient userRepository client userId o in
  completion r = Normal tt ->
  exists before after,
    completion (MessageWsService.getConnectedClients o) = Normal before /\
    completion (MessageWsService.getConnectedClients (clients r)) = Normal after /\
    (In k after <-> k = Socket.id client \/ In k before).
Proof.
  intros r Hok. exists (Obj.keys o), (Obj.keys (clients r)).
  split; [reflexivity|]. split; [reflexivity|].
  rewrite !In_keys. unfold has_record. subst r.
  destruct (userRepository userId) as [[u|]|e] eqn:Hfind;
    [destruct (User.isActive u) eqn:Hactive|..].
  2-4: exfalso;
       destruct (registerClient_rejected o userRepository client userId) as [e' He];
       [intros u' Hu'; congruence | rewrite He in Hok; discriminate].
  rewrite (registerClient_active o _ client userId u Hfind Hactive); simpl.
  rewrite get_set.
  destruct (String.eqb (Socket.id client) k) eqn:E.
  - apply String.eqb_eq in E. split; [auto | discriminate].
  - apply String.eqb_neq in E. split; [auto|].
    intros [-> | H]; [congruence | exact H].
Qed.

Lemma registerClient_listing_witness :
  let o := clients (call (Register Scenario.directory Scenario.connA "u1")
                      MessageWsService.init) in
  let r := MessageWsService.registerClient Scenario.directory Scenario.connB "u1" o in
  completion r = Normal tt /\
  exists before after,
    completion (MessageWsService.getConnectedClients o) = Normal before /\
    completion (MessageWsService.getConnectedClients (clients r)) = Normal after /\
    (In "connA" after <-> "connA" = Socket.id Scenario.connB \/ In "connA" before).
Proof.
  split; [reflexivity|].
  apply (registerClient_listing _ Scenario.directory Scenario.connB "u1" "connA").
  reflexivity.
Defined.

(** X16: after [removeClient] the connected clients are those listed before,
    without the removed identifier. *)
Theorem removeClient_listing (o : ConnectedClients) (sessionId k : string) :
  exists before after,
    completion (MessageWsService.getConnectedClients o) = Normal before /\
    completion (MessageWsService.getConnectedClients
                  (clients (MessageWsService.removeClient sessionId o)))
    = Normal after /\
    (In k after <-> k <> sessionId /\ In k before).
Proof.
  exists (Obj.keys o), (Obj.keys (Obj.delete o sessionId)).
  split; [reflexivity|]. split; [reflexivity|].
  rewrite !In_keys. unfold has_record. rewrite get_delete.
  destruct (String.eqb sessionId k) eqn:E.
  - apply String.eqb_eq in E. split; [congruence | intros [H _]; congruence].
  - apply String.eqb_neq in E. split; [auto | tauto].
Qed.
